(** * Ouroboros: the Ollama agent adapter and the Whisper command-line wrapper

    A shallow embedding of [ollama_agent.py] and [scripts/whisper_transcribe.py].
    Python values are an inductive type, exceptions are an explicit [Raise]
    outcome, the adapter's [__call__] runs in a small state-and-exception
    monad whose state holds the adapter object and the record of outbound
    chat-completion calls, and the command-line wrapper is a function from the
    parsed arguments and the speech library to what the process prints and
    the status it exits with. *)

From Stdlib Require Import String Ascii List ZArith QArith Bool Lia DecimalString.
Import ListNotations.
Local Open Scope string_scope.
Local Open Scope list_scope.

(* ===================================================================== *)
(** ** Python values, exceptions and the few builtins the sources use     *)
(* ===================================================================== *)

Module Py.

(** The values the adapter can be handed.  A [Dict] has text keys and keeps
    its insertion order; an [Obj] is an instance of a user class, given by
    the class name and its instance attributes. *)
#[warnings="-register-all"]
Inductive value : Type :=
| NoneVal
| Bool (b : bool)
| Int (n : Z)
| Str (s : string)
| List (items : list value)
| Tuple (items : list value)
| Dict (entries : list (string * value))
| Obj (class : string) (attrs : list (string * value)).

(** An instance of Python's [Exception] (the class the handlers of both
    sources name): its class and the text [str(e)] gives. *)
Record exception : Type := mkException { exc_class : string; exc_str : string }.

Inductive result (A : Type) : Type :=
| Return (a : A)
| Raise (e : exception).
Arguments Return {A} a.
Arguments Raise {A} e.

Definition bind {A B : Type} (c : result A) (k : A -> result B) : result B :=
  match c with
  | Return a => k a
  | Raise e => Raise e
  end.

(** The classes the sources test with [isinstance]. *)
Inductive class_name : Type := list_ | str_ | dict_.

Definition isinstance (v : value) (c : class_name) : bool :=
  match v, c with
  | List _, list_ => true
  | Str _, str_ => true
  | Dict _, dict_ => true
  | _, _ => false
  end.

Definition type_name (v : value) : string :=
  match v with
  | NoneVal => "NoneType"
  | Bool _ => "bool"
  | Int _ => "int"
  | Str _ => "str"
  | List _ => "list"
  | Tuple _ => "tuple"
  | Dict _ => "dict"
  | Obj c _ => c
  end.

Fixpoint lookup (k : string) (entries : list (string * value)) : option value :=
  match entries with
  | [] => None
  | (k', v) :: rest => if String.eqb k k' then Some v else lookup k rest
  end.

(** Attribute lookup, for the two names the adapter asks for, [role] and
    [content]: no builtin type defines either, so only an [Obj] can have
    them. *)
Definition find_attr (v : value) (name : string) : option value :=
  match v with
  | Obj _ attrs => lookup name attrs
  | _ => None
  end.

Definition hasattr (v : value) (name : string) : bool :=
  match find_attr v name with
  | Some _ => true
  | None => false
  end.

Definition AttributeError (v : value) (name : string) : exception :=
  mkException "AttributeError"
    ("'" ++ type_name v ++ "' object has no attribute '" ++ name ++ "'").

Definition getattr (v : value) (name : string) : result value :=
  match find_attr v name with
  | Some x => Return x
  | None => Raise (AttributeError v name)
  end.

Definition IndexError : exception :=
  mkException "IndexError" "list index out of range".

(** [xs[i]] for a list and a non-negative index. *)
Definition subscript {A : Type} (xs : list A) (i : nat) : result A :=
  match nth_error xs i with
  | Some x => Return x
  | None => Raise IndexError
  end.

(** [not xs] for a list. *)
Definition is_empty {A : Type} (xs : list A) : bool :=
  match xs with
  | [] => true
  | _ :: _ => false
  end.

(** [needle in haystack] for text. *)
Fixpoint contains (needle haystack : string) : bool :=
  if String.prefix needle haystack then true
  else match haystack with
       | EmptyString => false
       | String _ rest => contains needle rest
       end.

End Py.

Import Py.

Declare Scope py_scope.
Delimit Scope py_scope with py.
Notation "x <- c ;; k" := (Py.bind c (fun x => k))
  (at level 100, c at next level, right associativity) : py_scope.

(* ===================================================================== *)
(** ** ollama_agent.py                                                     *)
(* ===================================================================== *)

Module OllamaAgent.

(** The handle [openai.OpenAI(base_url=..., api_key=...)] returns. *)
Record client_handle : Type := OpenAI { base_url : string; api_key : string }.

(** The instance fields [__init__] sets. *)
Record instance : Type := mkInstance {
  model : string;
  host : string;
  _metta : value;
  _unwrap : bool;
  client : client_handle
}.

(** The keyword arguments of [client.chat.completions.create]. *)
Record completion_args : Type := mkArgs {
  arg_model : string;
  arg_messages : list value;
  arg_temperature : Q
}.

(** One outbound call: the handle it went through and its arguments. *)
Record outbound : Type := mkOutbound { via : client_handle; sent : completion_args }.

(** What the backend answers: [response.choices], each with a [message]. *)
Record choice : Type := mkChoice { message : value }.
Record response : Type := mkResponse { choices : list choice }.

(** The module-level [try: import openai / except ImportError: openai = None]:
    [None] when the library is missing, otherwise the module. *)
Inductive openai_module : Type := openai_lib.

Definition RuntimeError (text : string) : exception := mkException "RuntimeError" text.

Definition default_model : string := "llama3".
Definition default_host : string := "http://host.docker.internal:11434".

Definition __init__ (openai : option openai_module) (model host : string)
  : result instance :=
  match openai with
  | None => Raise (RuntimeError "openai library is required. pip install openai")
  | Some _ =>
      Return (mkInstance model host NoneVal true (OpenAI (host ++ "/v1") "ollama"))
  end.

Definition chat_message (role content : value) : value :=
  Dict [("role", role); ("content", content)].

(** The body of the [for msg in messages] loop (lines 45-48). *)
Definition append_message (formatted_messages : list value) (msg : value)
  : result (list value) :=
  if isinstance msg dict_ then Return (formatted_messages ++ [msg])
  else if hasattr msg "role" && hasattr msg "content" then
    (role <- getattr msg "role" ;;
     content <- getattr msg "content" ;;
     Return (formatted_messages ++ [chat_message role content]))%py
  else Return formatted_messages.

Fixpoint for_each (messages : list value) (formatted_messages : list value)
  : result (list value) :=
  match messages with
  | [] => Return formatted_messages
  | msg :: rest =>
      (formatted_messages' <- append_message formatted_messages msg ;;
       for_each rest formatted_messages')%py
  end.

(** The adapter object and the calls that have left it, oldest first. *)
Record state : Type := mkState { self : instance; wire : list outbound }.

(** Computations over that state which return or raise. *)
Definition M (A : Type) : Type := state -> result A * state.

Definition ret {A : Type} (a : A) : M A := fun st => (Return a, st).

Definition bindM {A B : Type} (c : M A) (k : A -> M B) : M B :=
  fun st =>
    match c st with
    | (Return a, st') => k a st'
    | (Raise e, st') => (Raise e, st')
    end.

Definition lift {A : Type} (r : result A) : M A := fun st => (r, st).

Definition get_self : M instance := fun st => (Return (self st), st).

(** [try: body / except Exception as e: handler e]. *)
Definition try_except {A : Type} (body : M A) (handler : exception -> M A) : M A :=
  fun st =>
    match body st with
    | (Return a, st') => (Return a, st')
    | (Raise e, st') => handler e st'
    end.

Declare Scope agent_scope.
Delimit Scope agent_scope with agent.
Notation "x <~ c ;; k" := (bindM c (fun x => k))
  (at level 100, c at next level, right associativity) : agent_scope.

(** The sampling temperature of line 58. *)
Definition temperature : Q := 7 # 10.

Section Calls.

(** Python's builtin [str]: the text of a value, or the exception the
    conversion raises (a [__str__] that raises, an integer over the digit
    limit, a nesting too deep). *)
Variable str : value -> result string.

(** The chat-completion endpoint: what a call answers or raises, given the
    calls made before it. *)
Variable endpoint : list outbound -> outbound -> result response.

(** Lines 42-53: the value of [formatted_messages] when the backend is
    called. *)
Definition formatted_messages (messages : value) : result (list value) :=
  (formatted <-
     match messages with
     | List items => for_each items []
     | Str _ => Return ([] ++ [chat_message (Str "user") messages])
     | _ => Return []
     end ;;
   if is_empty formatted
   then (text <- str messages ;;
         Return [chat_message (Str "user") (Str text)])
   else Return formatted)%py.

(** [handle.chat.completions.create(...)]: the call goes on the wire and the
    endpoint answers or raises. *)
Definition create (handle : client_handle) (args : completion_args) : M response :=
  fun st =>
    let call := mkOutbound handle args in
    (endpoint (wire st) call, mkState (self st) (wire st ++ [call])).

(** Lines 34-62.  [functions] is the second parameter, [[]] by default. *)
Definition __call__ (messages functions : value) : M value :=
  try_except
    (formatted <~ lift (formatted_messages messages) ;;
     this <~ get_self ;;
     response <~ create (client this) (mkArgs (model this) formatted temperature) ;;
     first <~ lift (subscript (choices response) 0) ;;
     ret (message first))%agent
    (fun e => ret (Str ("Error: " ++ exc_str e))).

End Calls.

End OllamaAgent.

(* ===================================================================== *)
(** ** scripts/whisper_transcribe.py                                       *)
(* ===================================================================== *)

Module whisper_transcribe.

(** Text is a sequence of code points below 256. *)
Definition double_quote : ascii := ascii_of_nat 34.
Definition backslash : ascii := ascii_of_nat 92.

Definition text_of_char (c : ascii) : string := String c EmptyString.

(** [str.isspace] on one code point. *)
Definition isspace (c : ascii) : bool :=
  let n := nat_of_ascii c in
  ((9 <=? n) && (n <=? 13) || (28 <=? n) && (n <=? 32) || (n =? 133) || (n =? 160))%nat.

Fixpoint lstrip (s : string) : string :=
  match s with
  | EmptyString => EmptyString
  | String c rest => if isspace c then lstrip rest else s
  end.

Fixpoint rstrip (s : string) : string :=
  match s with
  | EmptyString => EmptyString
  | String c rest =>
      match rstrip rest with
      | EmptyString => if isspace c then EmptyString else text_of_char c
      | kept => String c kept
      end
  end.

(** [s.strip()]. *)
Definition strip (s : string) : string := rstrip (lstrip s).

(** The values the script serializes. *)
#[warnings="-register-all"]
Inductive json : Type :=
| JString (s : string)
| JNumber (x : Q)
| JArray (items : list json)
| JObject (members : list (string * json)).

Definition hex_digit (n : nat) : ascii :=
  match get n "0123456789abcdef" with
  | Some c => c
  | None => "0"%char
  end.

(** One character inside a JSON string, as [json.dumps] writes it:
    with [ensure_ascii] everything outside the printable ASCII range is
    written as a [\u] escape, without it only the control characters are. *)
Definition escape_char (ensure_ascii : bool) (c : ascii) : string :=
  let n := nat_of_ascii c in
  if (n =? 34)%nat then String backslash (text_of_char double_quote)
  else if (n =? 92)%nat then String backslash (text_of_char backslash)
  else if (n =? 10)%nat then String backslash "n"
  else if (n =? 13)%nat then String backslash "r"
  else if (n =? 9)%nat then String backslash "t"
  else if (n =? 8)%nat then String backslash "b"
  else if (n =? 12)%nat then String backslash "f"
  else if ((n <? 32) || ensure_ascii && (126 <? n))%nat
  then String backslash
         ("u00" ++ String (hex_digit (n / 16)) (text_of_char (hex_digit (n mod 16))))
  else text_of_char c.

Fixpoint escape (ensure_ascii : bool) (s : string) : string :=
  match s with
  | EmptyString => EmptyString
  | String c rest => (escape_char ensure_ascii c ++ escape ensure_ascii rest)%string
  end.

Definition encode_string (ensure_ascii : bool) (s : string) : string :=
  String double_quote (escape ensure_ascii s ++ text_of_char double_quote).

(** [", ".join(parts)]. *)
Fixpoint join_comma (parts : list string) : string :=
  match parts with
  | [] => EmptyString
  | [p] => p
  | p :: rest => (p ++ ", " ++ join_comma rest)%string
  end.

Section Dumps.

(** How [json.dumps] writes a float. *)
Variable float_repr : Q -> string.

Fixpoint dumps (ensure_ascii : bool) (j : json) : string :=
  match j with
  | JString s => encode_string ensure_ascii s
  | JNumber x => float_repr x
  | JArray items => "[" ++ join_comma (map (dumps ensure_ascii) items) ++ "]"
  | JObject members =>
      "{" ++ join_comma
               (map (fun kv => (encode_string ensure_ascii (fst kv) ++ ": "
                                ++ dumps ensure_ascii (snd kv))%string) members)
          ++ "}"
  end.

End Dumps.

(** The parsed command line ([argparse], lines 16-24). *)
Inductive task_choice : Type := transcribe_task | translate_task.
Inductive output_choice : Type := json_output | text_output.

Record arguments : Type := mkArguments {
  audio_file : string;
  model : string;
  language : option string;
  task : task_choice;
  output : output_choice;
  initial_prompt : option string
}.

Definition task_text (t : task_choice) : string :=
  match t with
  | transcribe_task => "transcribe"
  | translate_task => "translate"
  end.

(** [if args.language: options["language"] = args.language], and the same
    for the initial prompt: the entry is set when the option was given and
    is not empty. *)
Definition set_if_truthy (key : string) (o : option string) : list (string * value) :=
  match o with
  | Some (String c rest) => [(key, Str (String c rest))]
  | _ => []
  end.

(** What [model.transcribe] returns: [text] always, [language] and
    [segments] read with [.get]. *)
Record segment : Type := mkSegment { seg_start : Q; seg_end : Q; seg_text : string }.

Record transcription : Type := mkTranscription {
  text : string;
  detected_language : option string;
  segments : option (list segment)
}.

(** The speech library: [whisper.load_model] and the loaded model's
    [transcribe]. *)
Record speech_model : Type := mkModel {
  transcribe : string -> list (string * value) -> result transcription
}.

Record whisper_module : Type := mkWhisper {
  load_model : string -> result speech_model
}.

(** What the process leaves behind: the lines the script prints on each
    stream and the exit status. *)
Record process : Type := mkProcess {
  stdout : list string;
  stderr : list string;
  exit_status : Z
}.

(** Lines 37-46. *)
Definition options (args : arguments) : list (string * value) :=
  [("task", Str (task_text (task args))); ("verbose", Bool false)]
  ++ set_if_truthy "language" (language args)
  ++ set_if_truthy "initial_prompt" (initial_prompt args).

(** Lines 51-62. *)
Definition json_of_result (r : transcription) : json :=
  JObject
    [("text", JString (strip (text r)));
     ("language", JString (match detected_language r with Some l => l | None => "unknown" end));
     ("segments",
      JArray (map (fun seg => JObject [("start", JNumber (seg_start seg));
                                       ("end", JNumber (seg_end seg));
                                       ("text", JString (strip (seg_text seg)))])
                  (match segments r with Some segs => segs | None => [] end)))].

Definition error_object (msg : string) : json := JObject [("error", JString msg)].

Section Main.

Variable float_repr : Q -> string.

(** Lines 32-65: the line the script prints on success. *)
Definition transcribe_and_render (lib : whisper_module) (args : arguments)
  : result string :=
  (loaded <- load_model lib (model args) ;;
   r <- transcribe loaded (audio_file args) (options args) ;;
   match output args with
   | json_output => Return (dumps float_repr false (json_of_result r))
   | text_output => Return (strip (text r))
   end)%py.

(** [main] from line 26 on, for the arguments [parse_args] returned and a
    stdout that takes every line: [whisper] is [None] when [import whisper]
    raises [ImportError].  The whole of [main], with the command line, the
    other failures of the import and a stdout that refuses a line, is
    [whisper_cli.main] below. *)
Definition main (whisper : option whisper_module) (args : arguments) : process :=
  match whisper with
  | None =>
      mkProcess []
        [dumps float_repr true
           (error_object "whisper not installed. Run: pip install openai-whisper")]
        1
  | Some lib =>
      match transcribe_and_render lib args with
      | Return line => mkProcess [line] [] 0
      | Raise e =>
          match output args with
          | json_output => mkProcess [dumps float_repr true (error_object (exc_str e))] [] 1
          | text_output => mkProcess [] [("Error: " ++ exc_str e)%string] 1
          end
      end
  end.

End Main.

End whisper_transcribe.

(* ===================================================================== *)
(** ** scripts/whisper_transcribe.py: [main] with its command line and its
       streams                                                             *)
(* ===================================================================== *)

Module whisper_cli.

Import whisper_transcribe.

(** What [parser.parse_args()] does with the command line: the parsed
    arguments, or, for a command line that is refused and for [--help],
    what argparse prints before it leaves through [sys.exit]. *)
Inductive parse_outcome : Type :=
| Namespace (args : arguments)
| SystemExit (status : Z) (printed_stdout printed_stderr : list string).

(** What [import whisper] does: the module, [ImportError] (or a subclass of
    it), or another exception, which nothing catches. *)
Inductive import_outcome : Type :=
| Imported (lib : whisper_module)
| RaisesImportError
| RaisesOther (e : exception).

Section Main.

Variable float_repr : Q -> string.

(** argparse on [sys.argv[1:]]. *)
Variable parse_args : list string -> parse_outcome.

(** [print(line)] on stdout: the line is written, or the stream raises
    before anything is written (an encoding that lacks a character). *)
Variable print_stdout : string -> result unit.

(** What the interpreter prints on stderr for exceptions nothing caught,
    the first raised first. *)
Variable traceback : list exception -> list string.

(** Lines 32-65, the [print] included. *)
Definition transcribe_and_print (lib : whisper_module) (args : arguments)
  : result string :=
  (line <- transcribe_and_render float_repr lib args ;;
   written <- print_stdout line ;;
   Return line)%py.

(** Lines 15-72: [argv] is the command line after the script's name. *)
Definition main (argv : list string) (whisper : import_outcome) : process :=
  match parse_args argv with
  | SystemExit status printed_stdout printed_stderr =>
      mkProcess printed_stdout printed_stderr status
  | Namespace args =>
      match whisper with
      | RaisesImportError =>
          mkProcess []
            [dumps float_repr true
               (error_object "whisper not installed. Run: pip install openai-whisper")]
            1
      | RaisesOther e => mkProcess [] (traceback [e]) 1
      | Imported lib =>
          match transcribe_and_print lib args with
          | Return line => mkProcess [line] [] 0
          | Raise e =>
              match output args with
              | json_output =>
                  let report := dumps float_repr true (error_object (exc_str e)) in
                  match print_stdout report with
                  | Return _ => mkProcess [report] [] 1
                  | Raise e' => mkProcess [] (traceback [e; e']) 1
                  end
              | text_output => mkProcess [] [("Error: " ++ exc_str e)%string] 1
              end
          end
      end
  end.

End Main.

End whisper_cli.

(* ===================================================================== *)
(** ** Vocabulary of the properties                                        *)
(* ===================================================================== *)

Import OllamaAgent.

(** A field of a record-like element: a key of a mapping, an attribute of
    anything else. *)
Definition exposed (v : value) (name : string) : option value :=
  match v with
  | Dict entries => lookup name entries
  | _ => find_attr v name
  end.

Definition exposes (v : value) (name : string) : bool :=
  match exposed v name with
  | Some _ => true
  | None => false
  end.

(** A role/content record: both fields are there, as keys or as attributes. *)
Definition exposes_role_and_content (v : value) : bool :=
  exposes v "role" && exposes v "content".

(** The elements the loop of lines 44-48 appends something for. *)
Definition is_appended (v : value) : bool :=
  isinstance v dict_ || hasattr v "role" && hasattr v "content".

(** What the loop appends for one element. *)
Definition contribution (v : value) : list value :=
  match v with
  | Dict _ => [v]
  | _ =>
      match find_attr v "role", find_attr v "content" with
      | Some role, Some content => [chat_message role content]
      | _, _ => []
      end
  end.

(** What the fallback of lines 52-53 is to give, written out: one dict with
    the role "user" and, as content, the text [str] gives for the payload;
    the exception of [str] when it raises. *)
Definition fallback (str : value -> result string) (payload : value)
  : result (list value) :=
  match str payload with
  | Return text => Return [Dict [("role", Str "user"); ("content", Str text)]]
  | Raise e => Raise e
  end.

(** A payload with a shape the code recognizes: text, or a list with an
    element the loop appends. *)
Definition recognized (payload : value) : bool :=
  match payload with
  | Str _ => true
  | List items => existsb is_appended items
  | _ => false
  end.

(** The ordered sequences, and a payload with a recognizable shape read as
    text or any ordered sequence holding a role/content record. *)
Definition sequence_items (payload : value) : option (list value) :=
  match payload with
  | List items | Tuple items => Some items
  | _ => None
  end.



(** An element and the message made of it carry the same role and content. *)
Definition same_role_and_content (element msg : value) : Prop :=
  isinstance msg dict_ = true
  /\ exposed msg "role" = exposed element "role"
  /\ exposed msg "content" = exposed element "content"
  /\ (isinstance element dict_ = true -> msg = element).

(** The call [__call__] makes for a normalized sequence. *)
Definition call_of (this : instance) (formatted : list value) : outbound :=
  mkOutbound (client this) (mkArgs (model this) formatted temperature).

(** What [__call__] returns for what the endpoint does: the first choice's
    message, or the text of the error. *)
Definition outcome (answer : result response) : value :=
  match answer with
  | Return r =>
      match choices r with
      | first :: _ => message first
      | [] => Str ("Error: " ++ exc_str IndexError)
      end
  | Raise e => Str ("Error: " ++ exc_str e)
  end.

(** Text between double quotes, and the line [json.dumps] writes for an
    object with the one key [error] when the message needs no escape. *)
Definition quoted (s : string) : string :=
  String whisper_transcribe.double_quote
    (s ++ String whisper_transcribe.double_quote EmptyString).

Definition json_error_line (msg : string) : string :=
  "{" ++ quoted "error" ++ ": " ++ quoted msg ++ "}".

Definition whisper_missing : string :=
  "whisper not installed. Run: pip install openai-whisper".

(** *** Concrete data the properties are run on *)

(** A rendering to run the model with: what [str] gives on [None], booleans,
    text, the empty containers and the integers short enough to be
    converted; an object of class [BadStr] stands for one whose [__str__]
    raises; other values are only tagged with their type name. *)
Definition boom : exception := mkException "RuntimeError" "boom".

Definition sample_str (v : value) : result string :=
  match v with
  | NoneVal => Return "None"
  | Bool true => Return "True"
  | Bool false => Return "False"
  | Int n => Return (NilZero.string_of_int (Z.to_int n))
  | Str s => Return s
  | List [] => Return "[]"
  | Tuple [] => Return "()"
  | Dict [] => Return "{}"
  | Obj "BadStr" _ => Raise boom
  | _ => Return ("<" ++ type_name v ++ ">")%string
  end.

Definition system_terse : value := chat_message (Str "system") (Str "Be terse").
Definition user_hi : value := chat_message (Str "user") (Str "Hi").
Definition user_hi_object : value :=
  Obj "Message" [("role", Str "user"); ("content", Str "Hi")].
Definition assistant_fine : value :=
  Obj "ChatCompletionMessage" [("role", Str "assistant"); ("content", Str "I'm fine")].

Definition llama3_agent : instance :=
  mkInstance default_model default_host NoneVal true
    (OpenAI (default_host ++ "/v1") "ollama").

Definition fresh_state : state := mkState llama3_agent [].

Definition connection_error : exception :=
  mkException "APIConnectionError" "Connection error.".

Definition unreachable_endpoint (_ : list outbound) (_ : outbound) : result response :=
  Raise connection_error.

Definition answering_endpoint (_ : list outbound) (_ : outbound) : result response :=
  Return (mkResponse [mkChoice assistant_fine]).

Definition sample_float_repr (x : Q) : string :=
  NilZero.string_of_int (Z.to_int (Qnum x / Zpos (Qden x))) ++ ".0".

Definition text_mode_arguments : whisper_transcribe.arguments :=
  whisper_transcribe.mkArguments "missing.wav" "base" None
    whisper_transcribe.transcribe_task whisper_transcribe.text_output None.

Definition json_mode_arguments : whisper_transcribe.arguments :=
  whisper_transcribe.mkArguments "missing.wav" "base" None
    whisper_transcribe.transcribe_task whisper_transcribe.json_output None.

Definition audio_error : exception :=
  mkException "RuntimeError" "Failed to load audio: No such file or directory".

Definition whisper_without_audio : whisper_transcribe.whisper_module :=
  whisper_transcribe.mkWhisper
    (fun _ => Return (whisper_transcribe.mkModel (fun _ _ => Raise audio_error))).

(** *** Vocabulary of the further properties *)

Definition is_dict (v : value) : bool := isinstance v dict_.

(** Two calls one after the other on the same adapter. *)
Definition call_twice (str : value -> result string)
    (endpoint : list outbound -> outbound -> result response)
    (first_payload first_functions second_payload second_functions : value)
  : M (value * value) :=
  (first_result <~ __call__ str endpoint first_payload first_functions ;;
   second_result <~ __call__ str endpoint second_payload second_functions ;;
   ret (first_result, second_result))%agent.

Definition empty_choices_endpoint (_ : list outbound) (_ : outbound) : result response :=
  Return (mkResponse []).

(** The characters of a printed line. *)
Definition printable_ascii (c : ascii) : bool :=
  let n := nat_of_ascii c in ((32 <=? n) && (n <=? 126))%nat.

(** A character [json.dumps] writes as it is when [ensure_ascii] is off. *)
Definition needs_no_escape (c : ascii) : bool :=
  let n := nat_of_ascii c in
  ((32 <=? n) && negb (n =? 34) && negb (n =? 92))%nat.

Fixpoint all_chars (p : ascii -> bool) (s : string) : bool :=
  match s with
  | EmptyString => true
  | String c rest => p c && all_chars p rest
  end.

Definition first_char (s : string) : option ascii :=
  match s with
  | EmptyString => None
  | String c _ => Some c
  end.

Fixpoint last_char (s : string) : option ascii :=
  match s with
  | EmptyString => None
  | String c rest =>
      match rest with
      | EmptyString => Some c
      | String _ _ => last_char rest
      end
  end.

Definition not_space (o : option ascii) : Prop :=
  match o with
  | Some c => whisper_transcribe.isspace c = false
  | None => True
  end.

(** Reading back what [escape] writes: the character a two-character escape
    stands for, the value of a hexadecimal digit, and the text of an escaped
    string. *)
Definition short_escape (c : ascii) : option ascii :=
  let n := nat_of_ascii c in
  if (n =? 34)%nat then Some (ascii_of_nat 34)
  else if (n =? 92)%nat then Some (ascii_of_nat 92)
  else if (n =? 110)%nat then Some (ascii_of_nat 10)
  else if (n =? 114)%nat then Some (ascii_of_nat 13)
  else if (n =? 116)%nat then Some (ascii_of_nat 9)
  else if (n =? 98)%nat then Some (ascii_of_nat 8)
  else if (n =? 102)%nat then Some (ascii_of_nat 12)
  else None.

Definition hex_value (c : ascii) : option nat :=
  let n := nat_of_ascii c in
  if ((48 <=? n) && (n <=? 57))%nat then Some (n - 48)%nat
  else if ((97 <=? n) && (n <=? 102))%nat then Some (n - 87)%nat
  else None.

Fixpoint unescape (s : string) : option string :=
  match s with
  | EmptyString => Some EmptyString
  | String c rest =>
      if Ascii.eqb c whisper_transcribe.backslash then
        match rest with
        | EmptyString => None
        | String d rest' =>
            if Ascii.eqb d "u"%char then
              match rest' with
              | String z1 (String z2 (String h (String l rest''))) =>
                  match hex_value z1, hex_value z2, hex_value h, hex_value l,
                        unescape rest'' with
                  | Some 0%nat, Some 0%nat, Some hi, Some lo, Some t =>
                      Some (String (ascii_of_nat (16 * hi + lo)) t)
                  | _, _, _, _, _ => None
                  end
              | _ => None
              end
            else
              match short_escape d, unescape rest' with
              | Some c', Some t => Some (String c' t)
              | _, _ => None
              end
        end
      else
        match unescape rest with
        | Some t => Some (String c t)
        | None => None
        end
  end.

(** The line printed for a transcription result: lines 50-65. *)
Definition rendered (float_repr : Q -> string)
    (args : whisper_transcribe.arguments) (r : whisper_transcribe.transcription)
  : string :=
  match whisper_transcribe.output args with
  | whisper_transcribe.json_output =>
      whisper_transcribe.dumps float_repr false (whisper_transcribe.json_of_result r)
  | whisper_transcribe.text_output => whisper_transcribe.strip (whisper_transcribe.text r)
  end.

(** A command line, a stdout and an interpreter to run [whisper_cli.main]
    with: the command line is read as the audio file alone, with every
    option at its default but [--output text] when it is the second word;
    the stdout is one of ASCII encoding. *)
Definition sample_parse_args (argv : list string) : whisper_cli.parse_outcome :=
  match argv with
  | [file] =>
      whisper_cli.Namespace
        (whisper_transcribe.mkArguments file "base" None
           whisper_transcribe.transcribe_task whisper_transcribe.json_output None)
  | [file; "--output"; "text"] =>
      whisper_cli.Namespace
        (whisper_transcribe.mkArguments file "base" None
           whisper_transcribe.transcribe_task whisper_transcribe.text_output None)
  | _ =>
      whisper_cli.SystemExit 2 []
        ["usage: whisper_transcribe.py [-h] [--model MODEL] audio_file"]
  end.

Definition encode_error : exception :=
  mkException "UnicodeEncodeError" "'ascii' codec can't encode character".

Definition ascii_stdout (line : string) : result unit :=
  if all_chars (fun c => (nat_of_ascii c <? 128)%nat) line
  then Return tt else Raise encode_error.

Definition sample_traceback (es : list exception) : list string :=
  "Traceback (most recent call last):" :: map exc_str es.

Definition cafe_transcription : whisper_transcribe.transcription :=
  whisper_transcribe.mkTranscription
    (" caf" ++ String (ascii_of_nat 233) EmptyString)%string (Some "fr") None.

Definition whisper_cafe : whisper_transcribe.whisper_module :=
  whisper_transcribe.mkWhisper
    (fun _ => Return (whisper_transcribe.mkModel (fun _ _ => Return cafe_transcription))).

(** A transcription result to run the command line on. *)
Definition sample_transcription : whisper_transcribe.transcription :=
  whisper_transcribe.mkTranscription "  hello world  " (Some "en") None.

Definition whisper_with_audio : whisper_transcribe.whisper_module :=
  whisper_transcribe.mkWhisper
    (fun _ => Return (whisper_transcribe.mkModel (fun _ _ => Return sample_transcription))).


(* ===================================================================== *)
(** ** The message normalizer (lines 42-53)                                *)
(* ===================================================================== *)

Section Normalizer.

Variable str : value -> result string.

Lemma hasattr_find_attr (v : value) (name : string) :
  hasattr v name = true <-> exists x, find_attr v name = Some x.
Proof.
  unfold hasattr. destruct (find_attr v name) as [x|].
  - split; [eauto | reflexivity].
  - split; [discriminate | intros [x Hx]; discriminate].
Qed.

(** One turn of the loop never raises: it appends [contribution msg]. *)
Lemma append_message_contribution (formatted : list value) (msg : value) :
  append_message formatted msg = Return (formatted ++ contribution msg).
Proof.
  unfold append_message, contribution, hasattr, getattr.
  destruct msg; simpl; try (rewrite app_nil_r; reflexivity); try reflexivity.
  destruct (lookup "role" attrs) as [role|]; simpl.
  - destruct (lookup "content" attrs) as [content|]; simpl.
    + reflexivity.
    + rewrite app_nil_r. reflexivity.
  - rewrite app_nil_r. reflexivity.
Qed.

(** The whole loop: the contributions of the elements, in order, after what
    was collected before. *)
Lemma for_each_contributions (messages formatted : list value) :
  for_each messages formatted = Return (formatted ++ flat_map contribution messages).
Proof.
  revert formatted.
  induction messages as [|msg rest IH]; intros formatted; simpl.
  - rewrite app_nil_r. reflexivity.
  - rewrite append_message_contribution. simpl.
    rewrite IH, <- app_assoc. reflexivity.
Qed.

Lemma contribution_is_appended (v : value) :
  contribution v = [] <-> is_appended v = false.
Proof.
  unfold contribution, is_appended, hasattr.
  destruct v; simpl; try tauto; try (split; [reflexivity | reflexivity]).
  - split; discriminate.
  - destruct (lookup "role" attrs), (lookup "content" attrs); simpl;
      split; (reflexivity || discriminate).
Qed.

Lemma no_contributions (items : list value) :
  existsb is_appended items = false -> flat_map contribution items = [].
Proof.
  induction items as [|x rest IH]; simpl; intros H.
  - reflexivity.
  - apply orb_false_iff in H. destruct H as [Hx Hrest].
    apply contribution_is_appended in Hx. rewrite Hx, IH by assumption.
    reflexivity.
Qed.

Lemma some_contribution (items : list value) :
  existsb is_appended items = true -> is_empty (flat_map contribution items) = false.
Proof.
  induction items as [|x rest IH]; simpl; intros H.
  - discriminate.
  - destruct (contribution x) as [|m ms] eqn:Hc; simpl.
    + apply contribution_is_appended in Hc. rewrite Hc in H. simpl in H. auto.
    + reflexivity.
Qed.

(** The fallback of the source and the one written out agree. *)
Lemma fallback_run (payload : value) :
  (text <- str payload ;; Return [chat_message (Str "user") (Str text)])%py =
  fallback str payload.
Proof. unfold fallback. destruct (str payload); reflexivity. Qed.

Lemma formatted_messages_list (items : list value) :
  formatted_messages str (List items) =
  if is_empty (flat_map contribution items)
  then fallback str (List items)
  else Return (flat_map contribution items).
Proof.
  unfold formatted_messages. rewrite for_each_contributions. simpl.
  destruct (flat_map contribution items); [apply fallback_run | reflexivity].
Qed.

(** A payload that is neither text nor a list with an element the loop
    appends goes to the fallback. *)
Lemma fallback_when_unrecognized (payload : value) :
  recognized payload = false ->
  formatted_messages str payload = fallback str payload.
Proof.
  intros H.
  destruct payload; simpl in H; try discriminate;
    try (unfold formatted_messages; simpl; apply fallback_run).
  rewrite formatted_messages_list, (no_contributions _ H). reflexivity.
Qed.

(** A payload with a recognized shape is normalized without [str]. *)
Lemma normalized_when_recognized (payload : value) :
  recognized payload = true ->
  exists formatted,
    formatted_messages str payload = Return formatted /\ formatted <> [].
Proof.
  intros H. destruct payload; simpl in H; try discriminate.
  - eexists. split; [reflexivity | discriminate].
  - rewrite formatted_messages_list.
    pose proof (some_contribution _ H) as Hne. rewrite Hne.
    eexists. split; [reflexivity|].
    intros Hnil. rewrite Hnil in Hne. discriminate.
Qed.

(** The normalizer as a whole: it returns a sequence that is not empty, or
    raises what [str] raised on a payload that went to the fallback. *)
Lemma formatted_messages_cases (messages : value) :
  (exists formatted,
      formatted_messages str messages = Return formatted /\ formatted <> [])
  \/ (exists e,
        formatted_messages str messages = Raise e
        /\ recognized messages = false /\ str messages = Raise e).
Proof.
  destruct (recognized messages) eqn:Hrec.
  - left. apply normalized_when_recognized, Hrec.
  - rewrite (fallback_when_unrecognized _ Hrec). unfold fallback.
    destruct (str messages) as [text|e].
    + left. eexists. split; [reflexivity | discriminate].
    + right. exists e. auto.
Qed.

(** C5. A payload that is a single text value is normalized to exactly one
    message, a dict whose role is "user" and whose content is that text. *)
Theorem text_payload_one_user_message (s : string) :
  formatted_messages str (Str s) =
  Return [Dict [("role", Str "user"); ("content", Str s)]].
Proof. reflexivity. Qed.

(** C2, as the code has it. In a list payload an element that is not a dict
    and lacks a [role] or a [content] attribute is skipped: the loop collects
    the same messages with and without it, and so does the normalizer when
    another element is appended.  A dict element is appended as it is, with
    or without [role] and [content] keys, between what the elements before
    and after it give. *)
Theorem unshaped_elements_skipped_dicts_kept
    (before after : list value) (x : value) :
  isinstance x dict_ = false ->
  hasattr x "role" && hasattr x "content" = false ->
  for_each (before ++ x :: after) [] = for_each (before ++ after) []
  /\ (existsb is_appended (before ++ after) = true ->
      formatted_messages str (List (before ++ x :: after)) =
      formatted_messages str (List (before ++ after)))
  /\ (forall entries : list (string * value),
        exists pre post,
          for_each before [] = Return pre
          /\ for_each after [] = Return post
          /\ for_each (before ++ Dict entries :: after) [] =
             Return (pre ++ Dict entries :: post)).
Proof.
  intros Hdict Hattrs.
  assert (Hx : contribution x = []).
  { apply contribution_is_appended. unfold is_appended.
    rewrite Hdict, Hattrs. reflexivity. }
  assert (Hsame : flat_map contribution (before ++ x :: after) =
                  flat_map contribution (before ++ after)).
  { rewrite !flat_map_app. simpl. rewrite Hx. reflexivity. }
  split; [|split].
  - rewrite !for_each_contributions, Hsame. reflexivity.
  - intros Hsome. rewrite !formatted_messages_list, Hsame.
    rewrite (some_contribution _ Hsome). reflexivity.
  - intros entries.
    exists (flat_map contribution before), (flat_map contribution after).
    rewrite !for_each_contributions, flat_map_app. simpl. auto.
Qed.



Lemma contribution_of_record (x : value) :
  exposes_role_and_content x = true ->
  exists msg, contribution x = [msg] /\ same_role_and_content x msg.
Proof.
  unfold exposes_role_and_content, exposes, same_role_and_content.
  intros H. apply andb_true_iff in H. destruct H as [Hrole Hcontent].
  destruct x; simpl in *; try discriminate.
  - eexists. split; [reflexivity|]. simpl. auto.
  - destruct (lookup "role" attrs) as [role|]; [|discriminate].
    destruct (lookup "content" attrs) as [content|]; [|discriminate].
    eexists. split; [reflexivity|]. simpl.
    repeat split; auto. discriminate.
Qed.

Lemma contributions_of_records (items : list value) :
  forallb exposes_role_and_content items = true ->
  Forall2 same_role_and_content items (flat_map contribution items).
Proof.
  induction items as [|x rest IH]; simpl; intros H.
  - constructor.
  - apply andb_true_iff in H. destruct H as [Hx Hrest].
    destruct (contribution_of_record x Hx) as [msg [Hc Hsame]].
    rewrite Hc. simpl. constructor; auto.
Qed.

(** C4, as the code has it. A payload that is a non-empty list whose elements
    all are role/content records, with the two fields as keys of a dict or
    as attributes, is normalized to one message per element, in the same
    order, each a dict with the element's role and content (a dict element
    is passed on as it is). *)
Theorem record_list_normalized_in_order (items : list value) :
  items <> [] ->
  forallb exposes_role_and_content items = true ->
  exists formatted,
    formatted_messages str (List items) = Return formatted
    /\ Forall2 same_role_and_content items formatted.
Proof.
  intros Hne Hall.
  pose proof (contributions_of_records items Hall) as HF.
  exists (flat_map contribution items). split; [|exact HF].
  rewrite formatted_messages_list.
  destruct (flat_map contribution items) as [|m ms] eqn:Hc; simpl.
  - inversion HF; subst. contradiction.
  - reflexivity.
Qed.

End Normalizer.

(* ===================================================================== *)
(** ** The adapter: construction and [__call__]                            *)
(* ===================================================================== *)

Section Adapter.

Variable str : value -> result string.
Variable endpoint : list outbound -> outbound -> result response.

(** One run of [__call__] once the payload is normalized: it returns a
    value, and the state it leaves has the same adapter object and one more
    call on the wire. *)
Lemma respond_run (st : state) (messages functions : value) (formatted : list value) :
  formatted_messages str messages = Return formatted ->
  __call__ str endpoint messages functions st =
  (Return (outcome (endpoint (wire st) (call_of (self st) formatted))),
   mkState (self st) (wire st ++ [call_of (self st) formatted])).
Proof.
  intros Hf.
  unfold __call__, try_except, bindM, lift, get_self, create, ret, outcome, call_of.
  rewrite Hf. simpl.
  destruct (endpoint (wire st) _) as [r|e]; simpl; [|reflexivity].
  unfold subscript. destruct (choices r) as [|first rest]; reflexivity.
Qed.

(** One run of [__call__] when normalizing raises: the error text is
    returned, no call is made and the state is left as it was. *)
Lemma respond_run_unformatted (st : state) (messages functions : value) (e : exception) :
  formatted_messages str messages = Raise e ->
  __call__ str endpoint messages functions st =
  (Return (Str ("Error: " ++ exc_str e)), st).
Proof.
  intros Hf. unfold __call__, try_except, bindM, lift, ret.
  rewrite Hf. reflexivity.
Qed.

Lemma contains_Error (details : string) :
  contains "Error" ("Error: " ++ details) = true.
Proof. reflexivity. Qed.

(** C1. Whatever the payload, when the chat-completion call made for it
    raises an exception, [__call__] does not raise: it returns the text
    "Error: " followed by the exception's text, which contains the word
    "Error". *)
Theorem backend_failure_returned_as_text
    (st : state) (messages functions : value) (formatted : list value)
    (e : exception) :
  formatted_messages str messages = Return formatted ->
  endpoint (wire st) (call_of (self st) formatted) = Raise e ->
  exists st',
    __call__ str endpoint messages functions st =
      (Return (Str ("Error: " ++ exc_str e)), st')
    /\ contains "Error" ("Error: " ++ exc_str e) = true.
Proof.
  intros Hf Hraise.
  eexists. split; [|apply contains_Error].
  rewrite (respond_run st messages functions formatted Hf).
  rewrite Hraise. reflexivity.
Qed.

(** C6. Whatever the payload, when the chat-completion call made for it
    answers, [__call__] has made exactly one call, through the adapter's
    client, with the adapter's model, the normalized messages and
    temperature 0.7, and it returns the message of the answer's first choice
    unchanged. *)
Theorem success_returns_first_choice
    (st : state) (messages functions : value) (formatted : list value)
    (answer : response) (first : choice) (others : list choice) :
  formatted_messages str messages = Return formatted ->
  endpoint (wire st)
    (mkOutbound (client (self st)) (mkArgs (model (self st)) formatted (7 # 10))) =
    Return answer ->
  choices answer = first :: others ->
  __call__ str endpoint messages functions st =
  (Return (message first),
   mkState (self st)
     (wire st ++ [mkOutbound (client (self st))
                    (mkArgs (model (self st)) formatted (7 # 10))])).
Proof.
  intros Hf Hanswer Hchoices.
  rewrite (respond_run st messages functions formatted Hf).
  unfold call_of, temperature. rewrite Hanswer.
  unfold outcome. rewrite Hchoices. reflexivity.
Qed.

(** C9. Whatever the payload and whatever the endpoint does, [__call__]
    returns without raising and leaves the adapter's fields as they were:
    the same model, the same host and the same client handle. *)
Theorem respond_leaves_fields (st : state) (messages functions : value) :
  let after := snd (__call__ str endpoint messages functions st) in
  (exists v, fst (__call__ str endpoint messages functions st) = Return v)
  /\ self after = self st
  /\ model (self after) = model (self st)
  /\ host (self after) = host (self st)
  /\ client (self after) = client (self st).
Proof.
  destruct (formatted_messages str messages) as [formatted|e] eqn:Hf.
  - rewrite (respond_run st messages functions formatted Hf). simpl.
    repeat split; eauto.
  - rewrite (respond_run_unformatted st messages functions e Hf). simpl.
    repeat split; eauto.
Qed.

(** C10. Whatever the payload, two values of the second parameter give the
    same run: the same returned value and the same calls on the wire, hence
    the same normalized messages and the same request. *)
Theorem functions_argument_ignored
    (st : state) (messages functions functions' : value) :
  __call__ str endpoint messages functions st =
  __call__ str endpoint messages functions' st.
Proof.
  destruct (formatted_messages str messages) as [formatted|e] eqn:Hf.
  - rewrite (respond_run st messages functions formatted Hf).
    rewrite (respond_run st messages functions' formatted Hf).
    reflexivity.
  - rewrite (respond_run_unformatted st messages functions e Hf).
    rewrite (respond_run_unformatted st messages functions' e Hf).
    reflexivity.
Qed.

End Adapter.

(** C7. Without the openai library the constructor raises [RuntimeError] at
    once, whatever the model and the host: no instance is returned, so there
    is nothing a later call could be made on. *)
Theorem construction_without_openai_raises (model host : string) :
  __init__ None model host =
    Raise (RuntimeError "openai library is required. pip install openai")
  /\ (forall this, __init__ None model host <> Return this).
Proof.
  split; [reflexivity|]. intros this. discriminate.
Qed.

Lemma construction_with_openai (lib : openai_module) (model host : string) :
  exists this,
    __init__ (Some lib) model host = Return this
    /\ OllamaAgent.model this = model /\ OllamaAgent.host this = host
    /\ base_url (client this) = (host ++ "/v1")%string.
Proof. eexists. simpl. repeat split. Qed.

(* ===================================================================== *)
(** ** The transcription command line                                      *)
(* ===================================================================== *)

Section Transcription.

Import whisper_transcribe.

Variable float_repr : Q -> string.

Lemma dumps_error_object (ensure_ascii : bool) (msg : string) :
  dumps float_repr ensure_ascii (error_object msg) =
  ("{" ++ quoted "error" ++ ": " ++ encode_string ensure_ascii msg ++ "}")%string.
Proof. destruct ensure_ascii; reflexivity. Qed.

(** A failure after the import (the model does not load, the file cannot be
    read, the recognition fails) is reported in the selected encoding, and
    the status is 1. *)
Lemma handled_failure_follows_output_mode
    (lib : whisper_module) (args : arguments) (e : exception) :
  transcribe_and_render float_repr lib args = Raise e ->
  main float_repr (Some lib) args =
  match output args with
  | json_output =>
      mkProcess
        [("{" ++ quoted "error" ++ ": " ++ encode_string true (exc_str e) ++ "}")%string]
        [] 1
  | text_output => mkProcess [] [("Error: " ++ exc_str e)%string] 1
  end.
Proof.
  intros H. unfold main. rewrite H. destruct (output args); reflexivity.
Qed.

(** The status is 0 exactly when the library was imported and the
    transcription returned. *)
Lemma exit_status_zero_iff_success (whisper : option whisper_module) (args : arguments) :
  exit_status (main float_repr whisper args) = 0%Z <->
  exists lib line,
    whisper = Some lib /\ transcribe_and_render float_repr lib args = Return line.
Proof.
  unfold main. destruct whisper as [lib|]; simpl.
  - destruct (transcribe_and_render float_repr lib args) as [line|e] eqn:Hrun; simpl.
    + split; [eauto | reflexivity].
    + split.
      * destruct (output args); simpl; discriminate.
      * intros [lib' [line [Hlib Hline]]]. inversion Hlib; subst.
        rewrite Hrun in Hline. discriminate.
  - split; [discriminate|]. intros [lib [line [Hlib _]]]. discriminate.
Qed.

(** When [import whisper] fails the output mode is not looked at: the JSON
    object goes to stderr and the status is 1. *)
Lemma missing_whisper_any_mode (args : arguments) :
  main float_repr None args = mkProcess [] [json_error_line whisper_missing] 1.
Proof. reflexivity. Qed.

(** C8, where the code departs from it. With [--output text] and no whisper
    library the process exits with status 1 and prints on stderr the JSON
    object with the key [error]: the line is not the text "Error: " followed
    by the message, which is what the text mode prints for the failures
    after the import. *)
Theorem missing_whisper_prints_json_in_text_mode :
  output text_mode_arguments = text_output
  /\ main float_repr None text_mode_arguments =
     mkProcess [] [json_error_line whisper_missing] 1
  /\ stderr (main float_repr None text_mode_arguments) <>
     [("Error: " ++ whisper_missing)%string].
Proof.
  split; [reflexivity|]. split; [reflexivity|]. discriminate.
Qed.

End Transcription.


(* ===================================================================== *)
(** ** The properties on concrete payloads                                 *)
(* ===================================================================== *)

(** The scenario of the text payload. *)
Example hello_normalized :
  formatted_messages sample_str (Str "Hello, how are you?") =
  Return [Dict [("role", Str "user"); ("content", Str "Hello, how are you?")]].
Proof. reflexivity. Qed.

(** The scenario of the two dicts: normalized unchanged, in order. *)
Example two_dicts_normalized :
  formatted_messages sample_str (List [system_terse; user_hi]) =
  Return [system_terse; user_hi].
Proof. reflexivity. Qed.

(** An empty list is a list of records only, and yet it gives the fallback
    message, not an empty sequence. *)
Example empty_list_falls_back :
  formatted_messages sample_str (List []) =
  Return [Dict [("role", Str "user"); ("content", Str "[]")]].
Proof. reflexivity. Qed.

(** A payload without a recognized shape whose [str] raises: the normalizer
    raises, and [__call__] returns the error text without a call. *)
Example bad_str_payload_raises :
  formatted_messages sample_str (Obj "BadStr" []) = Raise boom
  /\ __call__ sample_str answering_endpoint (Obj "BadStr" []) (List []) fresh_state =
     (Return (Str "Error: boom"), fresh_state).
Proof. split; reflexivity. Qed.

(** A dict without [role] and [content] keys is appended next to a proper
    message: the normalized sequence has two messages, not one. *)
Lemma keyless_dict_is_appended :
  exposes_role_and_content (Dict [("name", Str "x")]) = false
  /\ formatted_messages sample_str (List [user_hi; Dict [("name", Str "x")]]) =
     Return [user_hi; Dict [("name", Str "x")]]
  /\ formatted_messages sample_str (List [user_hi; Dict [("name", Str "x")]]) <>
     formatted_messages sample_str (List [user_hi]).
Proof.
  split; [reflexivity|]. split; [reflexivity|]. discriminate.
Qed.


(** A tuple of two role/content dicts is an ordered sequence of valid
    records, and it is normalized to the single fallback message: the two
    messages are not passed on. *)
Lemma tuple_of_records_falls_back :
  sequence_items (Tuple [system_terse; user_hi]) = Some [system_terse; user_hi]
  /\ forallb exposes_role_and_content [system_terse; user_hi] = true
  /\ formatted_messages sample_str (Tuple [system_terse; user_hi]) =
     Return [Dict [("role", Str "user"); ("content", Str "<tuple>")]]
  /\ ~ (exists formatted,
          formatted_messages sample_str (Tuple [system_terse; user_hi]) = Return formatted
          /\ Forall2 same_role_and_content [system_terse; user_hi] formatted).
Proof.
  split; [reflexivity|]. split; [reflexivity|]. split; [reflexivity|].
  intros [formatted [Hf HF]]. simpl in Hf. injection Hf as <-.
  inversion HF as [|x m xs ms _ Hrest]; subst.
  inversion Hrest.
Qed.

Lemma unshaped_elements_skipped_dicts_kept_witness :
  for_each ([user_hi] ++ Int 3 :: [user_hi_object]) [] =
  for_each ([user_hi] ++ [user_hi_object]) []
  /\ formatted_messages sample_str (List ([user_hi] ++ Int 3 :: [user_hi_object])) =
     Return [user_hi; user_hi].
Proof.
  destruct (unshaped_elements_skipped_dicts_kept sample_str
              [user_hi] [user_hi_object] (Int 3) eq_refl eq_refl)
    as [Hloop [Hnorm _]].
  split; [exact Hloop|].
  rewrite (Hnorm eq_refl). reflexivity.
Defined.


Lemma record_list_normalized_in_order_witness :
  exists formatted,
    formatted_messages sample_str (List [system_terse; user_hi_object]) = Return formatted
    /\ Forall2 same_role_and_content [system_terse; user_hi_object] formatted.
Proof.
  apply (record_list_normalized_in_order sample_str [system_terse; user_hi_object]).
  - discriminate.
  - reflexivity.
Defined.

Lemma backend_failure_returned_as_text_witness :
  exists st',
    __call__ sample_str unreachable_endpoint (Str "Hello, how are you?") (List [])
      fresh_state
    = (Return (Str "Error: Connection error."), st')
    /\ contains "Error" "Error: Connection error." = true.
Proof.
  apply (backend_failure_returned_as_text sample_str unreachable_endpoint
           fresh_state (Str "Hello, how are you?") (List [])
           [Dict [("role", Str "user"); ("content", Str "Hello, how are you?")]]
           connection_error); reflexivity.
Defined.

Lemma success_returns_first_choice_witness :
  __call__ sample_str answering_endpoint (Str "Hello, how are you?") (List [])
    fresh_state
  = (Return assistant_fine,
     mkState llama3_agent
       [mkOutbound (client llama3_agent)
          (mkArgs "llama3"
             [Dict [("role", Str "user"); ("content", Str "Hello, how are you?")]]
             (7 # 10))]).
Proof.
  apply (success_returns_first_choice sample_str answering_endpoint fresh_state
           (Str "Hello, how are you?") (List [])
           [Dict [("role", Str "user"); ("content", Str "Hello, how are you?")]]
           (mkResponse [mkChoice assistant_fine]) (mkChoice assistant_fine) []);
    reflexivity.
Defined.

(** The two failures of the command line on a file that is not there, once
    the library is imported: each in its own encoding. *)
Example unreadable_file_text_mode :
  whisper_transcribe.main sample_float_repr (Some whisper_without_audio)
    text_mode_arguments =
  whisper_transcribe.mkProcess []
    ["Error: Failed to load audio: No such file or directory"] 1.
Proof. reflexivity. Qed.

Example unreadable_file_json_mode :
  whisper_transcribe.main sample_float_repr (Some whisper_without_audio)
    json_mode_arguments =
  whisper_transcribe.mkProcess
    [json_error_line "Failed to load audio: No such file or directory"] [] 1.
Proof. reflexivity. Qed.

(** The failing run: no library, [--output text]. *)
Example missing_whisper_text_mode :
  whisper_transcribe.main sample_float_repr None text_mode_arguments =
  whisper_transcribe.mkProcess [] [json_error_line whisper_missing] 1.
Proof. reflexivity. Qed.

(* ===================================================================== *)
(** ** Further properties of the normalizer and of [__call__]              *)
(* ===================================================================== *)

Section NormalizerInvariants.

Variable str : value -> result string.

Lemma contribution_dicts (v : value) :
  Forall (fun m => is_dict m = true) (contribution v).
Proof.
  unfold contribution.
  destruct v; simpl; try constructor; try reflexivity; try constructor.
  destruct (lookup "role" attrs); [|constructor].
  destruct (lookup "content" attrs); repeat constructor.
Qed.

Lemma contributions_dicts (items : list value) :
  Forall (fun m => is_dict m = true) (flat_map contribution items).
Proof.
  induction items as [|x rest IH]; simpl.
  - constructor.
  - apply Forall_app. split; [apply contribution_dicts | exact IH].
Qed.

Lemma contributions_of_dicts (items : list value) :
  Forall (fun m => is_dict m = true) items -> flat_map contribution items = items.
Proof.
  induction 1 as [|x rest Hx _ IH]; simpl.
  - reflexivity.
  - destruct x; try discriminate. simpl. rewrite IH. reflexivity.
Qed.

Lemma contributions_filter (items : list value) :
  Forall (fun x => hasattr x "role" && hasattr x "content" = false) items ->
  flat_map contribution items = filter is_dict items.
Proof.
  induction 1 as [|x rest Hx _ IH]; simpl.
  - reflexivity.
  - rewrite IH. destruct (is_dict x) eqn:Hd.
    + destruct x; try discriminate. reflexivity.
    + assert (Hc : contribution x = []).
      { apply contribution_is_appended. unfold is_appended.
        unfold is_dict in Hd. rewrite Hd, Hx. reflexivity. }
      rewrite Hc. reflexivity.
Qed.

Lemma contribution_length (v : value) : (length (contribution v) <= 1)%nat.
Proof.
  unfold contribution. destruct v; simpl; try lia.
  destruct (lookup "role" attrs), (lookup "content" attrs); simpl; lia.
Qed.

Lemma contributions_length (items : list value) :
  (length (flat_map contribution items) <= length items)%nat.
Proof.
  induction items as [|x rest IH]; simpl.
  - lia.
  - rewrite length_app. pose proof (contribution_length x). lia.
Qed.

Lemma formatted_messages_shape (payload : value) (formatted : list value) :
  formatted_messages str payload = Return formatted ->
  formatted <> [] /\ Forall (fun m => is_dict m = true) formatted.
Proof.
  intros Hf.
  destruct (recognized payload) eqn:Hrec.
  - destruct payload; simpl in Hrec; try discriminate.
    + injection Hf as <-. split; [discriminate | repeat constructor].
    + rewrite formatted_messages_list, (some_contribution _ Hrec) in Hf.
      injection Hf as <-. split; [|apply contributions_dicts].
      intros Hnil. pose proof (some_contribution _ Hrec) as Hne.
      rewrite Hnil in Hne. discriminate.
  - rewrite (fallback_when_unrecognized str _ Hrec) in Hf. unfold fallback in Hf.
    destruct (str payload); [|discriminate].
    injection Hf as <-. split; [discriminate | repeat constructor].
Qed.

(** X1. Whatever the payload, what the normalizer returns is a sequence that
    is not empty and holds dicts only: the backend is never sent an empty
    message list or an element that is not a dict.  The normalizer raises
    only on a payload that is neither text nor a list with an element it
    appends, and then with the exception [str] of the payload raised. *)
Theorem normalized_nonempty_dicts (payload : value) :
  match formatted_messages str payload with
  | Return formatted =>
      formatted <> [] /\ Forall (fun m => is_dict m = true) formatted
  | Raise e => recognized payload = false /\ str payload = Raise e
  end.
Proof.
  destruct (formatted_messages str payload) as [formatted|e] eqn:Hf.
  - exact (formatted_messages_shape payload formatted Hf).
  - destruct (formatted_messages_cases str payload)
      as [[formatted [Hr _]] | [e' [Hr [Hrec Hstr]]]];
      rewrite Hr in Hf; [discriminate|].
    injection Hf as <-. auto.
Qed.

(** X2. Normalizing is idempotent: the normalized sequence, handed back as a
    list payload, is normalized to itself. *)
Theorem normalized_twice (payload : value) (formatted : list value) :
  formatted_messages str payload = Return formatted ->
  formatted_messages str (List formatted) = Return formatted.
Proof.
  intros Hf.
  destruct (formatted_messages_shape payload formatted Hf) as [Hne Hd].
  rewrite formatted_messages_list, (contributions_of_dicts _ Hd).
  destruct formatted; [contradiction | reflexivity].
Qed.

(** X3. A list payload that is not empty and holds dicts only is passed on
    unchanged, whatever keys the dicts have. *)
Theorem dict_list_unchanged (items : list value) :
  items <> [] ->
  Forall (fun m => is_dict m = true) items ->
  formatted_messages str (List items) = Return items.
Proof.
  intros Hne Hd.
  rewrite formatted_messages_list, (contributions_of_dicts _ Hd).
  destruct items; [contradiction | reflexivity].
Qed.

(** X4. On a list payload where no element has both a [role] and a
    [content] attribute, and some element is a dict, normalizing is
    filtering: the dicts are kept, in their order, and everything else is
    dropped. *)
Theorem dicts_filtered_in_order (items : list value) :
  Forall (fun x => hasattr x "role" && hasattr x "content" = false) items ->
  existsb is_dict items = true ->
  formatted_messages str (List items) = Return (filter is_dict items).
Proof.
  intros Hattrs Hsome.
  rewrite formatted_messages_list, (contributions_filter _ Hattrs).
  destruct (filter is_dict items) as [|m ms] eqn:Hf; [|reflexivity].
  exfalso. apply existsb_exists in Hsome. destruct Hsome as [x [Hin Hx]].
  assert (Hx' : In x (filter is_dict items)) by (apply filter_In; auto).
  rewrite Hf in Hx'. exact Hx'.
Qed.

(** X5. A list payload never yields more messages than it has elements, but
    for the single fallback message of a list nothing is taken from. *)
Theorem normalized_length_bound (items formatted : list value) :
  formatted_messages str (List items) = Return formatted ->
  (length formatted <= Nat.max 1 (length items))%nat.
Proof.
  rewrite formatted_messages_list. intros H.
  pose proof (contributions_length items) as Hlen.
  destruct (flat_map contribution items) as [|m ms]; cbn [is_empty] in H.
  - unfold fallback in H. destruct (str (List items)); [|discriminate].
    injection H as <-. cbn [length]. lia.
  - injection H as <-. cbn [length] in *. lia.
Qed.

End NormalizerInvariants.

Section AdapterRuns.

Variable str : value -> result string.
Variable endpoint : list outbound -> outbound -> result response.

(** X6. Every run of [__call__] returns a value and makes at most one call,
    never a second one.  When the payload is normalized, exactly one call
    goes out, whether the run ends with a message or with an error text,
    through the adapter's client with the adapter's model, the normalized
    messages and temperature 0.7.  When normalizing raises (the [str] of the
    fallback), no call goes out and the error text is returned. *)
Theorem one_call_per_run (st : state) (messages functions : value) :
  match formatted_messages str messages with
  | Return formatted =>
      exists result,
        __call__ str endpoint messages functions st =
        (Return result,
         mkState (self st)
           (wire st ++ [mkOutbound (client (self st))
                          (mkArgs (model (self st)) formatted (7 # 10))]))
  | Raise e =>
      __call__ str endpoint messages functions st =
      (Return (Str ("Error: " ++ exc_str e)), st)
  end.
Proof.
  destruct (formatted_messages str messages) as [formatted|e] eqn:Hf.
  - eexists. apply (respond_run str endpoint st messages functions formatted Hf).
  - apply (respond_run_unformatted str endpoint st messages functions e Hf).
Qed.

(** X7. When the backend answers the call with no choice at all, [__call__]
    returns the text "Error: list index out of range" instead of raising. *)
Theorem empty_choices_returned_as_text
    (st : state) (messages functions : value) (formatted : list value)
    (answer : response) :
  formatted_messages str messages = Return formatted ->
  endpoint (wire st) (call_of (self st) formatted) = Return answer ->
  choices answer = [] ->
  fst (__call__ str endpoint messages functions st) =
  Return (Str "Error: list index out of range").
Proof.
  intros Hf Hanswer Hnone.
  rewrite (respond_run str endpoint st messages functions formatted Hf).
  rewrite Hanswer. unfold outcome. rewrite Hnone. reflexivity.
Qed.

(** X8. Two calls in a row, each on a payload that is normalized, leave two
    calls on the wire, in that order, and the second carries the normalized
    messages of the second payload alone: nothing of the first exchange is
    kept or sent again. *)
Theorem second_call_carries_no_history
    (st : state) (p1 f1 p2 f2 : value) (formatted1 formatted2 : list value) :
  formatted_messages str p1 = Return formatted1 ->
  formatted_messages str p2 = Return formatted2 ->
  exists results,
    call_twice str endpoint p1 f1 p2 f2 st =
    (Return results,
     mkState (self st)
       (wire st ++ [call_of (self st) formatted1; call_of (self st) formatted2])).
Proof.
  intros Hf1 Hf2. eexists.
  unfold call_twice, bindM.
  rewrite (respond_run str endpoint st p1 f1 formatted1 Hf1).
  rewrite (respond_run str endpoint _ p2 f2 formatted2 Hf2).
  simpl. rewrite <- app_assoc. reflexivity.
Qed.

(** X9. An adapter built by [__init__] for a model and a host sends the call
    for a normalized payload through the handle for the host followed by
    "/v1", with the key "ollama", and names that model. *)
Theorem built_adapter_calls_its_host
    (lib : openai_module) (model host : string) (this : instance)
    (messages functions : value) (formatted : list value) :
  __init__ (Some lib) model host = Return this ->
  formatted_messages str messages = Return formatted ->
  wire (snd (__call__ str endpoint messages functions (mkState this []))) =
  [mkOutbound (OpenAI (host ++ "/v1") "ollama") (mkArgs model formatted (7 # 10))].
Proof.
  intros Hinit Hf. simpl in Hinit. injection Hinit as <-.
  rewrite (respond_run str endpoint _ messages functions formatted Hf).
  reflexivity.
Qed.

End AdapterRuns.

(* ===================================================================== *)
(** ** Further properties of the transcription command line               *)
(* ===================================================================== *)

Section Text.

Import whisper_transcribe.

Lemma text_app_assoc (a b c : string) : ((a ++ b) ++ c = a ++ (b ++ c))%string.
Proof. induction a as [|x a IH]; simpl; [reflexivity | rewrite IH; reflexivity]. Qed.

Lemma text_app_nil_r (a : string) : (a ++ EmptyString = a)%string.
Proof. induction a as [|x a IH]; simpl; [reflexivity | rewrite IH; reflexivity]. Qed.

Lemma text_app_cancel_r (a b c : string) : (a ++ c = b ++ c)%string -> a = b.
Proof.
  assert (Hlen : forall u v : string, String.length (u ++ v) = (String.length u + String.length v)%nat).
  { induction u as [|x u IH]; intros v; simpl; [reflexivity | rewrite IH; reflexivity]. }
  revert b. induction a as [|x a IH]; intros [|y b] H; simpl in H.
  - reflexivity.
  - apply (f_equal String.length) in H. simpl in H. rewrite Hlen in H. lia.
  - apply (f_equal String.length) in H. simpl in H. rewrite Hlen in H. lia.
  - injection H as -> H. rewrite (IH b H). reflexivity.
Qed.

Lemma all_chars_app (p : ascii -> bool) (a b : string) :
  all_chars p (a ++ b) = all_chars p a && all_chars p b.
Proof.
  induction a as [|x a IH]; simpl; [reflexivity|].
  rewrite IH, andb_assoc. reflexivity.
Qed.

(** What [lstrip] and [rstrip] take away is whitespace, and what they leave
    does not start, or end, with whitespace. *)
Lemma lstrip_split (s : string) :
  exists removed,
    s = (removed ++ lstrip s)%string /\ all_chars isspace removed = true.
Proof.
  induction s as [|c s [removed [Hs Hsp]]]; simpl.
  - exists EmptyString. auto.
  - destruct (isspace c) eqn:Hc.
    + exists (String c removed). simpl. rewrite Hc, Hsp, <- Hs. auto.
    + exists EmptyString. auto.
Qed.

Lemma rstrip_split (s : string) :
  exists removed,
    s = (rstrip s ++ removed)%string /\ all_chars isspace removed = true.
Proof.
  induction s as [|c s [removed [Hs Hsp]]]; simpl.
  - exists EmptyString. auto.
  - destruct (rstrip s) as [|k kept] eqn:Hk.
    + simpl in Hs. subst removed. destruct (isspace c) eqn:Hc.
      * exists (String c s). simpl. rewrite Hc, Hsp. auto.
      * exists s. auto.
    + exists removed. simpl in *. rewrite <- Hs. auto.
Qed.

Lemma lstrip_first (s : string) : not_space (first_char (lstrip s)).
Proof.
  induction s as [|c s IH]; simpl; [exact I|].
  destruct (isspace c) eqn:Hc; [exact IH | exact Hc].
Qed.

Lemma rstrip_first (s : string) :
  not_space (first_char s) -> not_space (first_char (rstrip s)).
Proof.
  destruct s as [|c s]; simpl; intros H; [exact I|].
  destruct (rstrip s); [rewrite H|]; exact H.
Qed.

Lemma rstrip_last (s : string) : not_space (last_char (rstrip s)).
Proof.
  induction s as [|c s IH]; simpl; [exact I|].
  destruct (rstrip s) as [|k kept].
  - destruct (isspace c) eqn:Hc; [exact I | exact Hc].
  - exact IH.
Qed.

Lemma strip_spec (s : string) :
  (exists before after,
      s = (before ++ strip s ++ after)%string
      /\ all_chars isspace before = true /\ all_chars isspace after = true)
  /\ not_space (first_char (strip s))
  /\ not_space (last_char (strip s)).
Proof.
  unfold strip. split; [|split].
  - destruct (lstrip_split s) as [before [Hb Hbs]].
    destruct (rstrip_split (lstrip s)) as [after [Ha Has]].
    exists before, after. rewrite <- Ha. auto.
  - apply rstrip_first, lstrip_first.
  - apply rstrip_last.
Qed.

Lemma escape_char_printable (c : ascii) :
  all_chars printable_ascii (escape_char true c) = true.
Proof. destruct c as [[] [] [] [] [] [] [] []]; reflexivity. Qed.

Lemma escape_printable (s : string) :
  all_chars printable_ascii (escape true s) = true.
Proof.
  induction s as [|c s IH]; simpl; [reflexivity|].
  rewrite all_chars_app, escape_char_printable, IH. reflexivity.
Qed.

Lemma escape_char_plain (c : ascii) :
  needs_no_escape c = true -> escape_char false c = text_of_char c.
Proof. destruct c as [[] [] [] [] [] [] [] []]; (discriminate || reflexivity). Qed.

Lemma escape_plain (s : string) :
  all_chars needs_no_escape s = true -> escape false s = s.
Proof.
  induction s as [|c s IH]; simpl; intros H; [reflexivity|].
  apply andb_true_iff in H. destruct H as [Hc Hs].
  rewrite (escape_char_plain c Hc), (IH Hs). reflexivity.
Qed.

Lemma encode_plain (s : string) :
  all_chars needs_no_escape s = true -> encode_string false s = quoted s.
Proof. intros H. unfold encode_string, quoted. rewrite (escape_plain s H). reflexivity. Qed.

Lemma unescape_escape_char (b : bool) (c : ascii) (t : string) :
  unescape (escape_char b c ++ t) =
  match unescape t with
  | Some t' => Some (String c t')
  | None => None
  end.
Proof.
  destruct b; destruct c as [[] [] [] [] [] [] [] []];
    match goal with
    | |- context [escape_char ?b ?c] =>
        let written := eval vm_compute in (escape_char b c) in
        change (escape_char b c) with written
    end;
    simpl; destruct (unescape t); reflexivity.
Qed.

Lemma unescape_escape (b : bool) (s t : string) :
  unescape (escape b s ++ t) =
  match unescape t with
  | Some t' => Some (s ++ t')%string
  | None => None
  end.
Proof.
  induction s as [|c s IH]; simpl.
  - destruct (unescape t); reflexivity.
  - rewrite text_app_assoc, unescape_escape_char, IH.
    destruct (unescape t); reflexivity.
Qed.

Lemma encode_string_injective (b : bool) (s1 s2 : string) :
  encode_string b s1 = encode_string b s2 -> s1 = s2.
Proof.
  unfold encode_string. intros H. injection H as H.
  apply (f_equal unescape) in H. rewrite !unescape_escape in H.
  cbn in H. injection H as H.
  exact (text_app_cancel_r _ _ _ H).
Qed.

End Text.

Section TranscriptionRuns.

Import whisper_transcribe.

Variable float_repr : Q -> string.

Lemma text_app_cancel_l (a b c : string) : (a ++ b = a ++ c)%string -> b = c.
Proof.
  induction a as [|x a IH]; simpl; intros H; [exact H|].
  injection H as H. exact (IH H).
Qed.

Lemma render_returns (lib : whisper_module) (args : arguments)
    (loaded : speech_model) (r : transcription) :
  load_model lib (model args) = Return loaded ->
  transcribe loaded (audio_file args) (options args) = Return r ->
  transcribe_and_render float_repr lib args =
  Return (match output args with
          | json_output => dumps float_repr false (json_of_result r)
          | text_output => strip (text r)
          end).
Proof.
  intros Hload Hrun. unfold transcribe_and_render.
  rewrite Hload. simpl. rewrite Hrun. simpl.
  destruct (output args); reflexivity.
Qed.



(** X14. The keyword arguments handed to [transcribe]: the task and
    [verbose=False] always, the language and the initial prompt only when
    given and not empty, so that an empty [--language] leaves the language
    to be detected. *)
Theorem options_entries (args : arguments) :
  lookup "task" (options args) = Some (Str (task_text (task args)))
  /\ lookup "verbose" (options args) = Some (Bool false)
  /\ lookup "language" (options args) =
     match language args with
     | Some (String c rest) => Some (Str (String c rest))
     | _ => None
     end
  /\ lookup "initial_prompt" (options args) =
     match initial_prompt args with
     | Some (String c rest) => Some (Str (String c rest))
     | _ => None
     end.
Proof.
  unfold options.
  destruct (language args) as [[|c1 l]|]; destruct (initial_prompt args) as [[|c2 p]|];
    repeat split; reflexivity.
Qed.

(** X15. The JSON error line is made of printable ASCII characters only,
    whatever the message: control characters, line breaks and characters
    above 126 are written as escapes, so the object stays on one line. *)
Theorem json_error_line_printable (msg : string) :
  all_chars printable_ascii (dumps float_repr true (error_object msg)) = true.
Proof.
  rewrite dumps_error_object.
  rewrite !all_chars_app. unfold encode_string. simpl.
  rewrite all_chars_app, escape_printable. reflexivity.
Qed.

(** X16. Among messages made of code points below 256, the JSON error line
    loses nothing of the message: two different messages give two different
    lines. *)
Theorem json_error_line_injective (msg1 msg2 : string) :
  msg1 <> msg2 ->
  dumps float_repr true (error_object msg1) <> dumps float_repr true (error_object msg2).
Proof.
  intros Hdiff H. apply Hdiff. revert H.
  rewrite !dumps_error_object. intros H.
  apply text_app_cancel_l in H. apply text_app_cancel_l in H.
  apply text_app_cancel_l in H. apply text_app_cancel_r in H.
  exact (encode_string_injective true msg1 msg2 H).
Qed.

End TranscriptionRuns.

Section CommandLine.

Import whisper_transcribe.

Variable float_repr : Q -> string.
Variable parse_args : list string -> whisper_cli.parse_outcome.
Variable print_stdout : string -> result unit.
Variable traceback : list exception -> list string.

Lemma rendered_returns (lib : whisper_module) (args : arguments)
    (loaded : speech_model) (r : transcription) :
  load_model lib (model args) = Return loaded ->
  transcribe loaded (audio_file args) (options args) = Return r ->
  transcribe_and_render float_repr lib args = Return (rendered float_repr args r).
Proof.
  intros Hload Hrun. unfold transcribe_and_render, rendered.
  rewrite Hload. simpl. rewrite Hrun. simpl.
  destruct (output args); reflexivity.
Qed.

Lemma rendered_inversion (lib : whisper_module) (args : arguments) (line : string) :
  transcribe_and_render float_repr lib args = Return line ->
  exists loaded r,
    load_model lib (model args) = Return loaded
    /\ transcribe loaded (audio_file args) (options args) = Return r
    /\ line = rendered float_repr args r.
Proof.
  unfold transcribe_and_render, rendered.
  destruct (load_model lib (model args)) as [loaded|e1]; simpl; [|discriminate].
  destruct (transcribe loaded (audio_file args) (options args)) as [r|e2] eqn:Hrun;
    simpl; [|discriminate].
  intros H. exists loaded, r. split; [reflexivity|]. split; [exact Hrun|].
  destruct (output args); injection H as <-; reflexivity.
Qed.

Lemma print_returns (lib : whisper_module) (args : arguments)
    (loaded : speech_model) (r : transcription) :
  load_model lib (model args) = Return loaded ->
  transcribe loaded (audio_file args) (options args) = Return r ->
  print_stdout (rendered float_repr args r) = Return tt ->
  whisper_cli.transcribe_and_print float_repr print_stdout lib args = Return (rendered float_repr args r).
Proof.
  intros Hload Hrun Hprint. unfold whisper_cli.transcribe_and_print.
  rewrite (rendered_returns lib args loaded r Hload Hrun). simpl.
  rewrite Hprint. reflexivity.
Qed.

Lemma print_inversion (lib : whisper_module) (args : arguments) (line : string) :
  whisper_cli.transcribe_and_print float_repr print_stdout lib args = Return line ->
  exists loaded r,
    load_model lib (model args) = Return loaded
    /\ transcribe loaded (audio_file args) (options args) = Return r
    /\ line = rendered float_repr args r
    /\ print_stdout line = Return tt.
Proof.
  unfold whisper_cli.transcribe_and_print.
  destruct (transcribe_and_render float_repr lib args) as [line'|e] eqn:Hr;
    simpl; [|discriminate].
  destruct (print_stdout line') as [[]|e] eqn:Hp; simpl; [|discriminate].
  intros H. injection H as <-.
  destruct (rendered_inversion lib args line' Hr) as [loaded [r [Hl [Ht Hline]]]].
  exists loaded, r. auto.
Qed.

(** The two models of [main] agree when the command line is parsed, the
    import returns or raises [ImportError], and stdout takes every line. *)
Lemma main_agrees (argv : list string) (args : arguments)
    (whisper : whisper_cli.import_outcome) :
  parse_args argv = whisper_cli.Namespace args ->
  (forall line, print_stdout line = Return tt) ->
  match whisper with
  | whisper_cli.Imported lib =>
      whisper_cli.main float_repr parse_args print_stdout traceback argv whisper = main float_repr (Some lib) args
  | whisper_cli.RaisesImportError =>
      whisper_cli.main float_repr parse_args print_stdout traceback argv whisper = main float_repr None args
  | whisper_cli.RaisesOther _ => True
  end.
Proof.
  intros Hparse Hprint. unfold whisper_cli.main, main. rewrite Hparse.
  destruct whisper as [lib| |e]; [|reflexivity|exact I].
  unfold whisper_cli.transcribe_and_print.
  destruct (transcribe_and_render float_repr lib args) as [line|e]; simpl.
  - rewrite Hprint. reflexivity.
  - destruct (output args); [|reflexivity]. rewrite Hprint. reflexivity.
Qed.

(** X10. With [--output text], when the command line is parsed, the model
    loads, the transcription returns and stdout takes the line, the process
    prints that one line on stdout, nothing on stderr, and exits with 0; the
    line is the transcript without its surrounding whitespace: only
    whitespace was removed, on the two sides, and the line neither starts
    nor ends with whitespace. *)
Theorem text_mode_prints_trimmed_transcript
    (argv : list string) (lib : whisper_module) (args : arguments)
    (loaded : speech_model) (r : transcription) :
  parse_args argv = whisper_cli.Namespace args ->
  output args = text_output ->
  load_model lib (model args) = Return loaded ->
  transcribe loaded (audio_file args) (options args) = Return r ->
  print_stdout (strip (text r)) = Return tt ->
  exists line,
    whisper_cli.main float_repr parse_args print_stdout traceback argv (whisper_cli.Imported lib) = mkProcess [line] [] 0
    /\ (exists before after,
          text r = (before ++ line ++ after)%string
          /\ all_chars isspace before = true /\ all_chars isspace after = true)
    /\ not_space (first_char line)
    /\ not_space (last_char line).
Proof.
  intros Hparse Hmode Hload Hrun Hprint. exists (strip (text r)).
  split; [|apply strip_spec].
  assert (Hline : rendered float_repr args r = strip (text r)).
  { unfold rendered. rewrite Hmode. reflexivity. }
  unfold whisper_cli.main. rewrite Hparse.
  rewrite (print_returns lib args loaded r Hload Hrun); rewrite Hline; auto.
Qed.


(** X12. The exit status is 0 in two cases only: argparse left with status
    0 (as for [--help]), or the command line was parsed, the library
    imported, the model loaded, the transcription returned and stdout took
    the printed line. *)
Theorem status_zero_iff_transcribed
    (argv : list string) (whisper : whisper_cli.import_outcome) :
  exit_status (whisper_cli.main float_repr parse_args print_stdout traceback argv whisper) = 0%Z <->
  (exists printed_stdout printed_stderr,
      parse_args argv = whisper_cli.SystemExit 0 printed_stdout printed_stderr)
  \/ (exists args lib loaded r,
        parse_args argv = whisper_cli.Namespace args
        /\ whisper = whisper_cli.Imported lib
        /\ load_model lib (model args) = Return loaded
        /\ transcribe loaded (audio_file args) (options args) = Return r
        /\ print_stdout (rendered float_repr args r) = Return tt).
Proof.
  unfold whisper_cli.main. split.
  - destruct (parse_args argv) as [args|status out err] eqn:Hparse; simpl.
    + destruct whisper as [lib| |e]; simpl; try discriminate.
      destruct (whisper_cli.transcribe_and_print float_repr print_stdout lib args) as [line|e] eqn:Htry; simpl.
      * intros _. right.
        destruct (print_inversion lib args line Htry)
          as [loaded [r [Hl [Ht [Hline Hp]]]]].
        exists args, lib, loaded, r. rewrite <- Hline. auto.
      * destruct (output args); simpl; [|discriminate].
        destruct (print_stdout _); simpl; discriminate.
    + intros ->. left. eauto.
  - intros [[out [err Hparse]] | [args [lib [loaded [r [Hparse [-> [Hl [Ht Hp]]]]]]]]];
      rewrite Hparse; simpl; [reflexivity|].
    rewrite (print_returns lib args loaded r Hl Ht Hp). reflexivity.
Qed.

(** X17. With [--output json], when the command line is parsed, the model
    loads, the transcription returns a result without segments whose
    trimmed text and language need no escape (no control character, double
    quote or backslash), and stdout takes the line, the process prints on
    stdout, with status 0, the object with the keys [text], [language] and
    [segments], in that order: the text is trimmed and otherwise written as
    it is, characters above 126 included, a missing language reads
    "unknown" and the segments are the empty array. *)
Theorem json_mode_line_without_segments
    (argv : list string) (lib : whisper_module) (args : arguments)
    (loaded : speech_model) (r : transcription) (line : string) :
  line =
    ("{" ++ quoted "text" ++ ": " ++ quoted (strip (text r)) ++ ", "
     ++ quoted "language" ++ ": "
     ++ quoted (match detected_language r with Some l => l | None => "unknown" end)
     ++ ", " ++ quoted "segments" ++ ": []}")%string ->
  parse_args argv = whisper_cli.Namespace args ->
  output args = json_output ->
  load_model lib (model args) = Return loaded ->
  transcribe loaded (audio_file args) (options args) = Return r ->
  segments r = None \/ segments r = Some [] ->
  all_chars needs_no_escape (strip (text r)) = true ->
  all_chars needs_no_escape
    (match detected_language r with Some l => l | None => "unknown" end) = true ->
  print_stdout line = Return tt ->
  whisper_cli.main float_repr parse_args print_stdout traceback argv (whisper_cli.Imported lib) = mkProcess [line] [] 0.
Proof.
  intros Hline Hparse Hmode Hload Hrun Hsegs Htext Hlang Hprint.
  assert (Hrendered : rendered float_repr args r = line).
  { unfold rendered. rewrite Hmode. unfold json_of_result.
    assert (Hnone : match segments r with Some segs => segs | None => [] end = []).
    { destruct Hsegs as [-> | ->]; reflexivity. }
    rewrite Hnone. cbn [dumps map join_comma fst snd].
    rewrite (encode_plain _ Htext), (encode_plain _ Hlang).
    rewrite !text_app_assoc. symmetry. exact Hline. }
  unfold whisper_cli.main. rewrite Hparse.
  rewrite (print_returns lib args loaded r Hload Hrun); rewrite Hrendered; auto.
Qed.

(** X18. A transcription that stdout refuses to print (an encoding that
    lacks one of its characters) is reported like any other failure, with
    status 1 and nothing of the transcript printed: with [--output text] as
    the text "Error: " and the message on stderr; with [--output json] as
    the JSON error object on stdout, and, if stdout refuses that line too,
    as the traceback of the two exceptions on stderr. *)
Theorem unprintable_transcript_reported
    (argv : list string) (lib : whisper_module) (args : arguments)
    (loaded : speech_model) (r : transcription) (e : exception) :
  parse_args argv = whisper_cli.Namespace args ->
  load_model lib (model args) = Return loaded ->
  transcribe loaded (audio_file args) (options args) = Return r ->
  print_stdout (rendered float_repr args r) = Raise e ->
  whisper_cli.main float_repr parse_args print_stdout traceback argv (whisper_cli.Imported lib) =
  match output args with
  | text_output => mkProcess [] [("Error: " ++ exc_str e)%string] 1
  | json_output =>
      match print_stdout (dumps float_repr true (error_object (exc_str e))) with
      | Return _ => mkProcess [dumps float_repr true (error_object (exc_str e))] [] 1
      | Raise e' => mkProcess [] (traceback [e; e']) 1
      end
  end.
Proof.
  intros Hparse Hload Hrun Hprint.
  unfold whisper_cli.main, whisper_cli.transcribe_and_print. rewrite Hparse.
  rewrite (rendered_returns lib args loaded r Hload Hrun). simpl.
  rewrite Hprint. simpl. destruct (output args); reflexivity.
Qed.

End CommandLine.

(* ===================================================================== *)
(** ** The further properties on concrete inputs                           *)
(* ===================================================================== *)

Lemma normalized_twice_witness :
  formatted_messages sample_str (List [user_hi; Int 3; user_hi_object]) =
    Return [user_hi; user_hi]
  /\ formatted_messages sample_str (List [user_hi; user_hi]) = Return [user_hi; user_hi].
Proof.
  split; [reflexivity|].
  exact (normalized_twice sample_str (List [user_hi; Int 3; user_hi_object])
           [user_hi; user_hi] eq_refl).
Defined.

Lemma dict_list_unchanged_witness :
  formatted_messages sample_str (List [system_terse; Dict [("name", Str "x")]]) =
  Return [system_terse; Dict [("name", Str "x")]].
Proof.
  apply (dict_list_unchanged sample_str [system_terse; Dict [("name", Str "x")]]).
  - discriminate.
  - repeat constructor.
Defined.

Lemma dicts_filtered_in_order_witness :
  formatted_messages sample_str (List [Str "hello"; system_terse; Int 3; user_hi]) =
  Return [system_terse; user_hi].
Proof.
  apply (dicts_filtered_in_order sample_str
           [Str "hello"; system_terse; Int 3; user_hi]).
  - repeat constructor.
  - reflexivity.
Defined.

Lemma normalized_length_bound_witness :
  (length [user_hi; user_hi] <= Nat.max 1 (length [user_hi; Int 3; user_hi_object]))%nat.
Proof.
  exact (normalized_length_bound sample_str [user_hi; Int 3; user_hi_object]
           [user_hi; user_hi] eq_refl).
Defined.

Lemma empty_choices_returned_as_text_witness :
  fst (__call__ sample_str empty_choices_endpoint (Str "Hello") (List []) fresh_state) =
  Return (Str "Error: list index out of range").
Proof.
  apply (empty_choices_returned_as_text sample_str empty_choices_endpoint
           fresh_state (Str "Hello") (List [])
           [Dict [("role", Str "user"); ("content", Str "Hello")]]
           (mkResponse [])); reflexivity.
Defined.

Lemma second_call_carries_no_history_witness :
  exists results,
    call_twice sample_str answering_endpoint
      (Str "Hello") (List []) (List [system_terse; user_hi]) (List []) fresh_state =
    (Return results,
     mkState llama3_agent
       [call_of llama3_agent [Dict [("role", Str "user"); ("content", Str "Hello")]];
        call_of llama3_agent [system_terse; user_hi]]).
Proof.
  apply (second_call_carries_no_history sample_str answering_endpoint fresh_state
           (Str "Hello") (List []) (List [system_terse; user_hi]) (List [])
           [Dict [("role", Str "user"); ("content", Str "Hello")]]
           [system_terse; user_hi]); reflexivity.
Defined.

Lemma built_adapter_calls_its_host_witness :
  wire (snd (__call__ sample_str answering_endpoint (Str "Hello") (List [])
               (mkState llama3_agent []))) =
  [mkOutbound (OpenAI "http://host.docker.internal:11434/v1" "ollama")
     (mkArgs "llama3" [Dict [("role", Str "user"); ("content", Str "Hello")]]
        (7 # 10))].
Proof.
  apply (built_adapter_calls_its_host sample_str answering_endpoint openai_lib
           default_model default_host llama3_agent (Str "Hello") (List [])
           [Dict [("role", Str "user"); ("content", Str "Hello")]]); reflexivity.
Defined.


Lemma json_error_line_injective_witness :
  whisper_transcribe.dumps sample_float_repr true
    (whisper_transcribe.error_object "file not found") <>
  whisper_transcribe.dumps sample_float_repr true
    (whisper_transcribe.error_object "file not found.").
Proof.
  apply (json_error_line_injective sample_float_repr
           "file not found" "file not found.").
  discriminate.
Defined.

Lemma text_mode_prints_trimmed_transcript_witness :
  exists line,
    whisper_cli.main sample_float_repr sample_parse_args ascii_stdout sample_traceback
      ["speech.wav"; "--output"; "text"] (whisper_cli.Imported whisper_with_audio) =
    whisper_transcribe.mkProcess [line] [] 0
    /\ (exists before after,
          "  hello world  " = (before ++ line ++ after)%string
          /\ all_chars whisper_transcribe.isspace before = true
          /\ all_chars whisper_transcribe.isspace after = true)
    /\ not_space (first_char line)
    /\ not_space (last_char line).
Proof.
  apply (text_mode_prints_trimmed_transcript sample_float_repr sample_parse_args
           ascii_stdout sample_traceback
           ["speech.wav"; "--output"; "text"] whisper_with_audio
           (whisper_transcribe.mkArguments "speech.wav" "base" None
              whisper_transcribe.transcribe_task whisper_transcribe.text_output None)
           (whisper_transcribe.mkModel (fun _ _ => Return sample_transcription))
           sample_transcription); reflexivity.
Defined.


Lemma json_mode_line_without_segments_witness :
  whisper_cli.main sample_float_repr sample_parse_args ascii_stdout sample_traceback
    ["speech.wav"] (whisper_cli.Imported whisper_with_audio) =
  whisper_transcribe.mkProcess
    [("{" ++ quoted "text" ++ ": " ++ quoted "hello world" ++ ", "
      ++ quoted "language" ++ ": " ++ quoted "en" ++ ", "
      ++ quoted "segments" ++ ": []}")%string]
    [] 0.
Proof.
  apply (json_mode_line_without_segments sample_float_repr sample_parse_args
           ascii_stdout sample_traceback ["speech.wav"] whisper_with_audio
           (whisper_transcribe.mkArguments "speech.wav" "base" None
              whisper_transcribe.transcribe_task whisper_transcribe.json_output None)
           (whisper_transcribe.mkModel (fun _ _ => Return sample_transcription))
           sample_transcription); try reflexivity.
  left. reflexivity.
Defined.

Lemma unprintable_transcript_reported_witness :
  whisper_cli.main sample_float_repr sample_parse_args ascii_stdout sample_traceback
    ["speech.wav"; "--output"; "text"] (whisper_cli.Imported whisper_cafe) =
  whisper_transcribe.mkProcess []
    ["Error: 'ascii' codec can't encode character"] 1.
Proof.
  apply (unprintable_transcript_reported sample_float_repr sample_parse_args
           ascii_stdout sample_traceback
           ["speech.wav"; "--output"; "text"] whisper_cafe
           (whisper_transcribe.mkArguments "speech.wav" "base" None
              whisper_transcribe.transcribe_task whisper_transcribe.text_output None)
           (whisper_transcribe.mkModel (fun _ _ => Return cafe_transcription))
           cafe_transcription encode_error); reflexivity.
Defined.

(** The same transcript with [--output json]: the line holds the character
    above 126 as it is, stdout refuses it, and the JSON error object is what
    is printed. *)
Example unprintable_transcript_json_mode :
  whisper_cli.main sample_float_repr sample_parse_args ascii_stdout sample_traceback
    ["speech.wav"] (whisper_cli.Imported whisper_cafe) =
  whisper_transcribe.mkProcess
    [json_error_line "'ascii' codec can't encode character"] [] 1.
Proof. reflexivity. Qed.

(** A command line argparse refuses: its usage text and status, nothing
    else. *)
Example refused_command_line :
  whisper_cli.main sample_float_repr sample_parse_args ascii_stdout sample_traceback
    [] (whisper_cli.Imported whisper_with_audio) =
  whisper_transcribe.mkProcess []
    ["usage: whisper_transcribe.py [-h] [--model MODEL] audio_file"] 2.
Proof. reflexivity. Qed.
